(** * Thermo-Barista: Newton's law of cooling

    A shallow embedding of [src/main.py]: the class [CoolingCalculator]
    (forward evaluation of the cooling law and its inversion), the sampling
    done by [CLIHandler.plot_cooling_curve], the dispatch of [main] and the
    reading of the input by [CLIHandler].

    The program computes with Python floats, that is with binary64 numbers;
    the specification speaks of real numbers.  The file has both readings.

    Exact real arithmetic.  The first reading takes a float for a real
    number ([R]): no rounding, no overflow, no NaN.  It is the model of the
    specification.  The two guards of [calculate_time_to_target] compare
    and do not compute, and no method assigns an attribute; what is proved
    of the guards and of the object in this reading holds of the program.
    What is proved in it of computed values (the round trip, monotonicity)
    is a statement about exact arithmetic, and says so.

    Binary64.  The second reading, in [Binary64], computes as Python does:
    the numbers are the kernel's binary64 floats, with their rounding,
    infinities, NaN and signed zeros; [x / 0] raises [ZeroDivisionError];
    [math.exp] and [math.log] are CPython's wrappers around the exponential
    and the logarithm of the platform's C library, which are parameters of
    the model ([Libm]) together with the few facts about them that are
    used.  [Binary64Facts.reference] is one such library; every theorem is
    stated for all of them.

    State.  A method receives the object and hands it back together with
    its outcome; a method that assigns no attribute hands back the object
    it was given.

    Console.  [CLIHandler._input_float] and [get_user_input] run on a
    console: the lines still to be read and what was written so far.
    Python's [float] is a parameter of the model ([None] for a line it
    refuses with [ValueError]); [input] at the end of the input raises
    [EOFError], which nothing catches. *)

From Stdlib Require Import Reals Lra Lia List ZArith.
From Stdlib Require String Ascii Floats Uint63.
Import ListNotations.

Open Scope R_scope.

(** ** Outcomes of a Python call *)

Inductive exn : Type :=
| ZeroDivisionError
| ValueError
| OverflowError.

Inductive result (A : Type) : Type :=
| Ok (a : A)
| Raise (e : exn).

Arguments Ok {A} a.
Arguments Raise {A} e.

(** ** The program over exact real arithmetic

    A float is taken for a real number. *)

(** [x / y]: true division, which raises on a zero divisor. *)
Definition truediv (x y : R) : result R :=
  if Req_dec_T y 0 then Raise ZeroDivisionError else Ok (x / y).

(** [min(a, b)] and [max(a, b)] keep the first argument unless the second
    one is strictly smaller (resp. larger). *)
Definition py_min (a b : R) : R := if Rlt_dec b a then b else a.
Definition py_max (a b : R) : R := if Rgt_dec b a then b else a.

Definition Rleb (x y : R) : bool := if Rle_dec x y then true else false.
Definition Rltb (x y : R) : bool := if Rlt_dec x y then true else false.

(** The functions of the [math] module that the program calls. *)
Class MathModule : Type := {
  math_exp : R -> result R;
  math_log : R -> result R
}.

(** [math.log]: defined on the positive numbers only. *)
Definition log_checked (x : R) : result R :=
  if Rlt_dec 0 x then Ok (ln x) else Raise ValueError.

(** Over the reals the exponential is total. *)
Definition real_math : MathModule :=
  {| math_exp := fun x => Ok (exp x);
     math_log := log_checked |}.

(** ** The object and its methods *)

(** [CoolingCalculator.__init__] stores three attributes. *)
Record CoolingCalculator : Type := __init__ {
  t0 : R;   (* initial temperature *)
  ts : R;   (* ambient temperature *)
  k  : R    (* cooling coefficient *)
}.

(** A method body: from the object to an outcome and the object afterwards. *)
Definition Method (A : Type) : Type :=
  CoolingCalculator -> result A * CoolingCalculator.

Definition ret {A} (a : A) : Method A := fun self => (Ok a, self).

Definition bind {A B} (m : Method A) (f : A -> Method B) : Method B :=
  fun self =>
    match m self with
    | (Ok a, self') => f a self'
    | (Raise e, self') => (Raise e, self')
    end.

(** Reading an attribute [self.f]. *)
Definition attr (f : CoolingCalculator -> R) : Method R :=
  fun self => (Ok (f self), self).

(** An operation that touches no object: only its outcome matters. *)
Definition call {A} (r : result A) : Method A := fun self => (r, self).

Notation "x <- m ;; f" := (bind m (fun x => f))
  (at level 61, m at next level, right associativity).

(** A list comprehension [[f x for x in xs]], evaluated left to right. *)
Fixpoint comprehension {A B} (f : A -> Method B) (xs : list A)
  : Method (list B) :=
  match xs with
  | [] => ret []
  | x :: xs' =>
      y <- f x ;;
      ys <- comprehension f xs' ;;
      ret (y :: ys)
  end.

(** What [plot_cooling_curve] hands to matplotlib. *)
Record Figure : Type := {
  times : list R;          (* abscissae of the curve *)
  temps : list R;          (* ordinates of the curve *)
  axhline : R;             (* the horizontal reference line *)
  scatter : R * R;         (* the marked point *)
  xytext : R * R           (* where the annotation is written *)
}.

Section Program.

Context {math : MathModule}.

(** [return self.ts + (self.t0 - self.ts) * math.exp(-self.k * t)] *)
Definition calculate_at_time (t : R) : Method R :=
  ts_ <- attr ts ;;
  t0_ <- attr t0 ;;
  ts' <- attr ts ;;
  k_ <- attr k ;;
  e <- call (math_exp (- k_ * t)) ;;
  ret (ts_ + (t0_ - ts') * e).

(** [[
    if self.k <= 0: return None
    if not (min(self.t0, self.ts) < target_t < max(self.t0, self.ts)):
        return None
    return -(1/self.k) * math.log((target_t - self.ts) / (self.t0 - self.ts))
    ]] *)
Definition calculate_time_to_target (target_t : R) : Method (option R) :=
  k_ <- attr k ;;
  if Rleb k_ 0 then ret None
  else
    t0_ <- attr t0 ;;
    ts_ <- attr ts ;;
    between <-
      (if Rltb (py_min t0_ ts_) target_t then
         t0' <- attr t0 ;;
         ts' <- attr ts ;;
         ret (Rltb target_t (py_max t0' ts'))
       else ret false) ;;
    if negb between then ret None
    else
      k' <- attr k ;;
      inv_k <- call (truediv 1 k') ;;
      ts_1 <- attr ts ;;
      t0_1 <- attr t0 ;;
      ts_2 <- attr ts ;;
      ratio <- call (truediv (target_t - ts_1) (t0_1 - ts_2)) ;;
      l <- call (math_log ratio) ;;
      ret (Some (- inv_k * l)).

(** [[
    times = [i * (target_time * 1.5) / 99 for i in range(100)]
    temps = [calculator.calculate_at_time(t) for t in times]
    ]]
    The divisor 99 is a literal, so this division cannot raise. *)
Definition plot_cooling_curve (target_t target_time : R) : Method Figure :=
  let times := map (fun i => INR i * (target_time * 1.5) / 99) (seq 0 100) in
  temps <- comprehension calculate_at_time times ;;
  t0_ <- attr t0 ;;
  ret {| times := times;
         temps := temps;
         axhline := target_t;
         scatter := (target_time, target_t);
         xytext := (target_time + target_time * 0.1,
                    target_t + (t0_ - target_t) * 0.15) |}.

End Program.

(** ** The specification's vocabulary *)

(** [strictly_between a b x]: the validity condition on the target,
    [min(a, b) < x < max(a, b)]. *)
Definition strictly_between (a b x : R) : Prop :=
  Rmin a b < x < Rmax a b.

(** The quotient under the logarithm. *)
Definition ratio (self : CoolingCalculator) (target_t : R) : R :=
  (target_t - ts self) / (t0 self - ts self).


(** ** Concrete calculators *)

(** A mug of coffee at 80 degrees in a room at 20, rate constant 0.05. *)
Definition mug : CoolingCalculator := __init__ 80 20 0.05.


(** A drink already at room temperature. *)
Definition tepid : CoolingCalculator := __init__ 20 20 0.05.

(** A negative rate constant: the temperature runs away from the ambient. *)
(** ** The console *)

(** The texts [CLIHandler] writes when it reads the input. *)
Module Text.
Import String.
#[local] Open Scope string_scope.

Definition newline : string := String (Ascii.ascii_of_nat 10) EmptyString.

Definition invalid_number : string := "  [!] 유효한 숫자를 입력해주세요.".

Definition header : string := newline ++ "=== Thermo-Barista 분석기 입력 ===".
Definition ask_t0 : string := "음료 온도(T0, °C): ".
Definition ask_ts : string := "환경 온도(Ts, °C): ".
Definition tip : string := newline ++ "[Tip] 일반적인 냉각 계수(k) 참고값:".
Definition tip_mug : string := "  - 머그컵 (뚜껑 X): 0.03 ~ 0.05".
Definition tip_paper : string := "  - 종이컵 (뚜껑 O): 0.02 ~ 0.03".
Definition tip_tumbler : string := "  - 보온 텀블러: 0.005 ~ 0.01".
Definition ask_k : string := "냉각 계수(k): ".
Definition ask_target : string := "적정 온도(°C): ".

(** A parser for the examples: it knows the four numbers of the first
    scenario and refuses every other line. *)
Definition known_float (line : string) : option R :=
  if eqb line "80" then Some 80%R
  else if eqb line "20" then Some 20%R
  else if eqb line "0.05" then Some 0.05%R
  else if eqb line "40" then Some 40%R
  else None.

(** Lines typed at the console: two are no numbers. *)
Definition typed : list string := ["80"; "hot"; "20"; "0.05"; ""; "40"; "bye"].

(** What is left of them behind the fourth number. *)
Definition leftover : list string := ["bye"].

End Text.

(** What is written to the standard output: the prompt of an [input] call,
    or a line of [print]. *)
Inductive written : Type :=
| prompted (s : String.string)
| printed (s : String.string).

(** The standard input, line by line, and what was written so far. *)
Record console : Type := {
  stdin : list String.string;
  stdout : list written
}.

(** A console operation returns, or ends in [EOFError] when [input] finds
    no line left; [ValueError] is caught where it arises. *)
Inductive io_result (A : Type) : Type :=
| Got (a : A)
| EOFError.

Arguments Got {A} a.
Arguments EOFError {A}.

Definition IO (A : Type) : Type := console -> io_result A * console.

Definition io_bind {A B} (m : IO A) (f : A -> IO B) : IO B :=
  fun c =>
    match m c with
    | (Got a, c') => f a c'
    | (EOFError, c') => (EOFError, c')
    end.

Notation "x <~ m ;; f" := (io_bind m (fun x => f))
  (at level 61, m at next level, right associativity).

(** [print(s)] *)
Definition print (s : String.string) : IO unit :=
  fun c => (Got tt, {| stdin := stdin c; stdout := stdout c ++ [printed s] |}).

Section Input.

(** Python's [float] on a line of input: [None] stands for [ValueError]. *)
Variable float : String.string -> option R.

(** [[
    while True:
        try:
            return float(input(prompt))
        except ValueError:
            print("  [!] ...")
    ]]
    Every turn of the loop takes one line, so the loop is a recursion on
    the lines left; [input] writes its prompt before it reads. *)
Fixpoint _input_float_loop (prompt : String.string)
    (lines : list String.string) (out : list written)
  : io_result R * console :=
  match lines with
  | [] => (EOFError, {| stdin := []; stdout := out ++ [prompted prompt] |})
  | line :: rest =>
      match float line with
      | Some v => (Got v, {| stdin := rest; stdout := out ++ [prompted prompt] |})
      | None =>
          _input_float_loop prompt rest
            (out ++ [prompted prompt] ++ [printed Text.invalid_number])
      end
  end.

Definition _input_float (prompt : String.string) : IO R :=
  fun c => _input_float_loop prompt (stdin c) (stdout c).

(** [[
    print(header)
    t0 = CLIHandler._input_float(...)
    ts = CLIHandler._input_float(...)
    print(...) (four lines of tips)
    k = CLIHandler._input_float(...)
    target_t = CLIHandler._input_float(...)
    return t0, ts, k, target_t
    ]] *)
Definition get_user_input : IO (R * R * R * R) :=
  _ <~ print Text.header ;;
  t0 <~ _input_float Text.ask_t0 ;;
  ts <~ _input_float Text.ask_ts ;;
  _ <~ print Text.tip ;;
  _ <~ print Text.tip_mug ;;
  _ <~ print Text.tip_paper ;;
  _ <~ print Text.tip_tumbler ;;
  k <~ _input_float Text.ask_k ;;
  target_t <~ _input_float Text.ask_target ;;
  fun c => (Got (t0, ts, k, target_t), c).

(** The numbers among the lines, in order. *)
Definition numbers (lines : list String.string) : list R :=
  flat_map (fun line => match float line with Some v => [v] | None => [] end)
           lines.

(** What the loop writes for the lines it refuses: for each, the prompt
    and the warning. *)
Definition refusals (prompt : String.string) (bad : list String.string)
  : list written :=
  flat_map (fun _ => [prompted prompt; printed Text.invalid_number]) bad.

End Input.

(** ** The program in binary64 *)

Module Binary64.
Import Floats.
#[local] Open Scope bool_scope.
#[local] Open Scope float_scope.
#[local] Set Warnings "-inexact-float,-notation-overridden".

(** *** The C library

    [libm_exp] and [libm_log] are C's [exp] and [log] on doubles.  Their
    last bits differ from one platform to the next; the facts below hold
    on all of them: the values C fixes ([exp(+-0) = 1], [log(1) = +0]),
    the range of a double ([exp] overflows from 710 on and underflows to
    zero from -746 down), that a result is NaN only for a NaN argument,
    and the sides of 1 and 0 that a faithful rounding keeps. *)
Class Libm : Type := {
  libm_exp : float -> float;
  libm_log : float -> float;
  exp_zero : forall x, (x =? 0) = true -> libm_exp x = 1;
  exp_overflow : forall x, (710 <=? x) = true -> libm_exp x = infinity;
  exp_underflow : forall x, (x <=? -746) = true -> libm_exp x = 0;
  exp_unit : forall x, (x <=? 0) = true ->
    (0 <=? libm_exp x) = true /\ (libm_exp x <=? 1) = true;
  exp_nan : forall x, is_nan (libm_exp x) = true -> is_nan x = true;
  log_one : libm_log 1 = 0;
  log_unit : forall x, (0 <? x) = true -> (x <=? 1) = true ->
    (libm_log x <=? 0) = true;
  log_below_one : forall x, (0 <? x) = true -> (x <? 1) = true ->
    (libm_log x <? 0) = true;
  log_finite : forall x, is_finite x = true -> (0 <? x) = true ->
    is_finite (libm_log x) = true
}.

(** A library for the examples: a step function on each side of the
    values the facts fix. *)
Definition reference_exp (x : float) : float :=
  if x =? 0 then 1
  else if 710 <=? x then infinity
  else if x <=? 0 then (if x <=? -746 then 0 else 0.5)
  else if is_nan x then x
  else 2.

Definition reference_log (x : float) : float :=
  if x <? 1 then -1
  else if x =? 1 then 0
  else if is_finite x then 1
  else x.

(** *** Python's operations on floats *)

(** [x / y]: raises on a divisor equal to zero, of either sign. *)
Definition truediv (x y : float) : result float :=
  if y =? 0 then Raise ZeroDivisionError else Ok (x / y).

(** [min(a, b)] and [max(a, b)] keep the first argument unless the second
    one is strictly smaller (resp. larger); a comparison with NaN is
    false. *)
Definition py_min (a b : float) : float := if b <? a then b else a.
Definition py_max (a b : float) : float := if a <? b then b else a.

(** [a < x < b], with [a] and [b] the [min] and the [max]. *)
Definition between (a b x : float) : bool :=
  (py_min a b <? x) && (x <? py_max a b).

(** The truth value of a float: false on both zeros only. *)
Definition truthy (target_time : option float) : bool :=
  match target_time with
  | None => false
  | Some v => negb (v =? 0)
  end.

(** The conversion of a (small) Python [int] to a float. *)
Definition float_of_nat (i : nat) : float :=
  of_uint63 (Uint63.of_Z (Z.of_nat i)).

(** CPython's [math_1]: the result [r] of the C function at [x] is
    returned unless it is NaN for an argument that is not, or infinite for
    a finite argument. *)
Definition math_1 (can_overflow : bool) (x r : float) : result float :=
  if is_nan r && negb (is_nan x) then Raise ValueError
  else if is_infinity r && is_finite x then
    Raise (if can_overflow then OverflowError else ValueError)
  else Ok r.

(** *** The object and its methods *)

Record CoolingCalculator : Type := __init__ {
  t0 : float;
  ts : float;
  k  : float
}.

Definition Method (A : Type) : Type :=
  CoolingCalculator -> result A * CoolingCalculator.

Definition ret {A} (a : A) : Method A := fun self => (Ok a, self).

Definition bind {A B} (m : Method A) (f : A -> Method B) : Method B :=
  fun self =>
    match m self with
    | (Ok a, self') => f a self'
    | (Raise e, self') => (Raise e, self')
    end.

Definition attr (f : CoolingCalculator -> float) : Method float :=
  fun self => (Ok (f self), self).

Definition call {A} (r : result A) : Method A := fun self => (r, self).

#[local] Notation "x <- m ;; f" := (bind m (fun x => f))
  (at level 61, m at next level, right associativity).

Fixpoint comprehension {A B} (f : A -> Method B) (xs : list A)
  : Method (list B) :=
  match xs with
  | [] => ret []
  | x :: xs' =>
      y <- f x ;;
      ys <- comprehension f xs' ;;
      ret (y :: ys)
  end.

Record Figure : Type := {
  times : list float;
  temps : list float;
  axhline : float;
  scatter : float * float;
  xytext : float * float
}.

Inductive event : Type :=
| display_results (t0 ts target_t target_time : float)
| show (f : Figure)
| print_error.

Section Program.

Context {libm : Libm}.

(** [math.exp]: [math_1] on C's [exp], an overflow being reported as
    [OverflowError]. *)
Definition math_exp (x : float) : result float :=
  math_1 true x (libm_exp x).

(** CPython's [m_log]: C's [log] on the finite positive numbers, and the
    values of the standard elsewhere. *)
Definition m_log (x : float) : float :=
  if is_finite x then
    if 0 <? x then libm_log x
    else if x =? 0 then neg_infinity
    else nan
  else if is_nan x then x
  else if 0 <? x then x
  else nan.

(** [math.log]: [math_1] on [m_log]; there is no overflow to report, an
    infinite result for a finite argument is a [ValueError]. *)
Definition math_log (x : float) : result float :=
  math_1 false x (m_log x).

(** [return self.ts + (self.t0 - self.ts) * math.exp(-self.k * t)] *)
Definition calculate_at_time (t : float) : Method float :=
  ts_ <- attr ts ;;
  t0_ <- attr t0 ;;
  ts' <- attr ts ;;
  k_ <- attr k ;;
  e <- call (math_exp (- k_ * t)) ;;
  ret (ts_ + (t0_ - ts') * e).

(** [[
    if self.k <= 0: return None
    if not (min(self.t0, self.ts) < target_t < max(self.t0, self.ts)):
        return None
    return -(1/self.k) * math.log((target_t - self.ts) / (self.t0 - self.ts))
    ]] *)
Definition calculate_time_to_target (target_t : float)
  : Method (option float) :=
  k_ <- attr k ;;
  if k_ <=? 0 then ret None
  else
    t0_ <- attr t0 ;;
    ts_ <- attr ts ;;
    inside <-
      (if py_min t0_ ts_ <? target_t then
         t0' <- attr t0 ;;
         ts' <- attr ts ;;
         ret (target_t <? py_max t0' ts')
       else ret false) ;;
    if negb inside then ret None
    else
      k' <- attr k ;;
      inv_k <- call (truediv 1 k') ;;
      ts_1 <- attr ts ;;
      t0_1 <- attr t0 ;;
      ts_2 <- attr ts ;;
      q <- call (truediv (target_t - ts_1) (t0_1 - ts_2)) ;;
      l <- call (math_log q) ;;
      ret (Some (- inv_k * l)).

(** [[i * (target_time * 1.5) / 99 for i in range(100)]] *)
Definition sample_times (target_time : float) : list float :=
  map (fun i => float_of_nat i * (target_time * 1.5) / 99) (seq 0 100).

(** [[
    times = [i * (target_time * 1.5) / 99 for i in range(100)]
    temps = [calculator.calculate_at_time(t) for t in times]
    ]] *)
Definition plot_cooling_curve (target_t target_time : float)
  : Method Figure :=
  let times := sample_times target_time in
  temps <- comprehension calculate_at_time times ;;
  t0_ <- attr t0 ;;
  ret {| times := times;
         temps := temps;
         axhline := target_t;
         scatter := (target_time, target_t);
         xytext := (target_time + target_time * 0.1,
                    target_t + (t0_ - target_t) * 0.15) |}.

(** [main], from the four numbers read: the events it produces, in order,
    and how it ends.
    [[
    calc = CoolingCalculator(t0, ts, k)
    target_time = calc.calculate_time_to_target(target_t)
    if target_time:
        CLIHandler.display_results(t0, ts, target_t, target_time)
        CLIHandler.plot_cooling_curve(calc, target_t, target_time)
    else:
        print("...")
    ]] *)
Definition main (t0 ts k target_t : float) : list event * result unit :=
  let calc := __init__ t0 ts k in
  match calculate_time_to_target target_t calc with
  | (Raise e, _) => ([], Raise e)
  | (Ok target_time, calc') =>
      if truthy target_time then
        match target_time with
        | Some v =>
            let shown := display_results t0 ts target_t v in
            match plot_cooling_curve target_t v calc' with
            | (Ok fig, _) => ([shown; show fig], Ok tt)
            | (Raise e, _) => ([shown], Raise e)
            end
        | None => ([print_error], Ok tt)
        end
      else ([print_error], Ok tt)
  end.


(** The expression behind the guards:
    [-(1/k) * math.log((target_t - ts) / (t0 - ts))]. *)
Definition inversion (self : CoolingCalculator) (target_t : float)
  : result (option float) :=
  match truediv 1 (k self) with
  | Raise e => Raise e
  | Ok inv_k =>
      match truediv (target_t - ts self) (t0 self - ts self) with
      | Raise e => Raise e
      | Ok q =>
          match math_log q with
          | Raise e => Raise e
          | Ok l => Ok (Some (- inv_k * l))
          end
      end
  end.

End Program.

(** *** The sign of a number, read off its representation

    Zeros and NaN are on both sides. *)
Definition not_negative (x : spec_float) : bool :=
  match x with
  | S754_finite true _ _ | S754_infinity true => false
  | _ => true
  end.

Definition not_positive (x : spec_float) : bool :=
  match x with
  | S754_finite false _ _ | S754_infinity false => false
  | _ => true
  end.

Definition strictly_positive (x : spec_float) : bool :=
  match x with
  | S754_finite false _ _ | S754_infinity false => true
  | _ => false
  end.

Definition strictly_negative (x : spec_float) : bool :=
  match x with
  | S754_finite true _ _ | S754_infinity true => true
  | _ => false
  end.

(** *** Concrete calculators *)

(** A mug of coffee at 80 degrees in a room at 20, rate constant 0.05. *)
Definition mug : CoolingCalculator := __init__ 80 20 0.05.


(** Temperatures two hundred orders of magnitude apart. *)
Definition huge : CoolingCalculator := __init__ 1e200 0 1.


(** A negative rate constant: the temperature runs away. *)
Definition runaway : CoolingCalculator := __init__ 80 20 (-1).

(** Temperatures at the two ends of the range of a double. *)
Definition wide : CoolingCalculator := __init__ 1e308 (-1e308) 1.

(** A drink already at room temperature. *)
Definition tepid : CoolingCalculator := __init__ 20 20 0.05.



End Binary64.

(** ** Comparisons *)

Lemma Rleb_true (x y : R) : Rleb x y = true <-> x <= y.
Proof. unfold Rleb; destruct (Rle_dec x y); split; intros; auto; discriminate. Qed.

Lemma Rleb_false (x y : R) : Rleb x y = false <-> y < x.
Proof.
  unfold Rleb; destruct (Rle_dec x y); split; intros; auto;
    try discriminate; lra.
Qed.

Lemma Rltb_true (x y : R) : Rltb x y = true <-> x < y.
Proof. unfold Rltb; destruct (Rlt_dec x y); split; intros; auto; discriminate. Qed.

Lemma Rltb_false (x y : R) : Rltb x y = false <-> y <= x.
Proof.
  unfold Rltb; destruct (Rlt_dec x y); split; intros; auto;
    try discriminate; lra.
Qed.

Lemma py_min_Rmin (a b : R) : py_min a b = Rmin a b.
Proof.
  unfold py_min, Rmin; destruct (Rlt_dec b a), (Rle_dec a b); lra.
Qed.

Lemma py_max_Rmax (a b : R) : py_max a b = Rmax a b.
Proof.
  unfold py_max, Rmax; destruct (Rgt_dec b a), (Rle_dec a b); lra.
Qed.

Lemma strictly_between_cases (a b x : R) :
  strictly_between a b x <-> (a < x < b) \/ (b < x < a).
Proof.
  unfold strictly_between, Rmin, Rmax; destruct (Rle_dec a b); lra.
Qed.


(** ** The methods over real arithmetic *)

Section RealArithmetic.

#[local] Existing Instance real_math.


(** First guard: a rate constant that is not positive. *)
Lemma time_to_target_bad_rate (self : CoolingCalculator) (target_t : R) :
  k self <= 0 ->
  calculate_time_to_target target_t self = (Ok None, self).
Proof.
  intros Hk. unfold calculate_time_to_target, bind, attr.
  apply Rleb_true in Hk. rewrite Hk. reflexivity.
Qed.

(** Second guard: a target outside the open interval. *)
Lemma time_to_target_out_of_range (self : CoolingCalculator) (target_t : R) :
  0 < k self ->
  ~ strictly_between (t0 self) (ts self) target_t ->
  calculate_time_to_target target_t self = (Ok None, self).
Proof.
  intros Hk Hout. unfold calculate_time_to_target, bind, attr.
  apply Rleb_false in Hk. rewrite Hk.
  unfold strictly_between in Hout.
  rewrite <- py_min_Rmin, <- py_max_Rmax in Hout.
  destruct (Rltb (py_min (t0 self) (ts self)) target_t) eqn:Hlo; cbn.
  - destruct (Rltb target_t (py_max (t0 self) (ts self))) eqn:Hhi; cbn.
    + apply Rltb_true in Hlo, Hhi. tauto.
    + reflexivity.
  - reflexivity.
Qed.






(** C9. When the initial and the ambient temperature coincide, the open
    interval between them is empty and [calculate_time_to_target] returns
    [None] for every target and every rate constant. *)
Theorem no_target_when_temperatures_coincide
    (self : CoolingCalculator) (target_t : R) :
  t0 self = ts self ->
  calculate_time_to_target target_t self = (Ok None, self).
Proof.
  intros Heq.
  assert (Hout : ~ strictly_between (t0 self) (ts self) target_t).
  { rewrite strictly_between_cases. lra. }
  destruct (Rle_dec (k self) 0) as [Hk|Hk].
  - apply time_to_target_bad_rate; assumption.
  - apply time_to_target_out_of_range; [lra | assumption].
Qed.

Lemma no_target_when_temperatures_coincide_witness :
  t0 tepid = ts tepid /\ 0 < k tepid /\
  calculate_time_to_target 20 tepid = (Ok None, tepid) /\
  calculate_time_to_target 50 tepid = (Ok None, tepid).
Proof.
  split; [reflexivity|]. split; [cbn; lra|]. split.
  - apply (no_target_when_temperatures_coincide tepid 20). reflexivity.
  - apply (no_target_when_temperatures_coincide tepid 50). reflexivity.
Defined.




(** *** The specification's scenarios *)

Example scenario_2 : calculate_time_to_target 90 mug = (Ok None, mug).
Proof.
  apply time_to_target_out_of_range; [cbn; lra|].
  rewrite strictly_between_cases. cbn. lra.
Qed.

Example scenario_4 (target_t : R) :
  calculate_time_to_target target_t (__init__ 80 20 0) = (Ok None, __init__ 80 20 0).
Proof. apply time_to_target_bad_rate. cbn. lra. Qed.

End RealArithmetic.

(** ** The object is never modified *)

Section Frame.

Context {math : MathModule}.

Lemma calculate_at_time_frame (t : R) (self : CoolingCalculator) :
  snd (calculate_at_time t self) = self.
Proof.
  unfold calculate_at_time, bind, attr, call, ret.
  destruct (math_exp (- k self * t)); reflexivity.
Qed.

Lemma calculate_time_to_target_frame (target_t : R) (self : CoolingCalculator) :
  snd (calculate_time_to_target target_t self) = self.
Proof.
  unfold calculate_time_to_target, bind, attr, call, ret.
  destruct (Rleb (k self) 0); [reflexivity|].
  destruct (Rltb (py_min (t0 self) (ts self)) target_t); cbn;
    [destruct (Rltb target_t (py_max (t0 self) (ts self))); cbn|];
    try reflexivity.
  destruct (truediv 1 (k self)); [|reflexivity].
  destruct (truediv (target_t - ts self) (t0 self - ts self)); [|reflexivity].
  destruct (math_log _); reflexivity.
Qed.

End Frame.

(** C8. Neither [calculate_at_time] nor [calculate_time_to_target] changes
    [t0], [ts] or [k]: the object after the call is the object before it.
    The outcome of a call is a function of the argument and of these three
    attributes, so two objects that agree on them give the same outcome, and
    a call made after another one gives what it gives alone. *)
Theorem methods_are_pure
    (math : MathModule) (self : CoolingCalculator) (x y : R) :
  snd (calculate_at_time x self) = self /\
  snd (calculate_time_to_target x self) = self /\
  (forall other,
     t0 other = t0 self -> ts other = ts self -> k other = k self ->
     fst (calculate_at_time x other) = fst (calculate_at_time x self) /\
     fst (calculate_time_to_target x other)
       = fst (calculate_time_to_target x self)) /\
  fst (calculate_at_time x (snd (calculate_time_to_target y self)))
    = fst (calculate_at_time x self) /\
  fst (calculate_time_to_target x (snd (calculate_at_time y self)))
    = fst (calculate_time_to_target x self).
Proof.
  split; [apply calculate_at_time_frame|].
  split; [apply calculate_time_to_target_frame|].
  split.
  - intros other H0 Hs Hk.
    assert (other = self) as ->; [|split; reflexivity].
    destruct other, self; cbn in *; congruence.
  - rewrite calculate_time_to_target_frame, calculate_at_time_frame.
    split; reflexivity.
Qed.

(** ** Forward evaluation within the range of a double *)
(** ** Reading the input *)

Section ConsoleInput.

Variable float : String.string -> option R.

(** Lines that are no numbers cost a prompt and a warning each. *)
Lemma input_float_loop_skip
    (prompt : String.string) (bad rest : list String.string)
    (out : list written) :
  Forall (fun line => float line = None) bad ->
  _input_float_loop float prompt (bad ++ rest) out =
  _input_float_loop float prompt rest (out ++ refusals prompt bad).
Proof.
  intros Hbad. revert out.
  induction Hbad as [|line bad Hline _ IH]; intros out.
  - cbn. rewrite app_nil_r. reflexivity.
  - cbn [app _input_float_loop]. rewrite Hline, IH.
    f_equal. cbn. rewrite <- app_assoc. reflexivity.
Qed.

(** What a returning loop has read and written. *)
Lemma input_float_loop_returns
    (prompt : String.string) (lines : list String.string)
    (out : list written) (v : R) (c' : console) :
  _input_float_loop float prompt lines out = (Got v, c') ->
  exists bad good,
    lines = bad ++ good :: stdin c' /\
    Forall (fun line => float line = None) bad /\
    float good = Some v /\
    stdout c' = out ++ refusals prompt bad ++ [prompted prompt].
Proof.
  revert out. induction lines as [|line rest IH]; intros out Hrun.
  - discriminate.
  - cbn [_input_float_loop] in Hrun. destruct (float line) as [w|] eqn:Hline.
    + injection Hrun as <- <-. exists [], line. cbn.
      repeat split; [constructor | exact Hline].
    + destruct (IH _ Hrun) as (bad & good & Hlines & Hbad & Hgood & Hout).
      exists (line :: bad), good. cbn.
      split; [rewrite Hlines; reflexivity|].
      split; [constructor; assumption|].
      split; [exact Hgood|].
      rewrite Hout, <- app_assoc. reflexivity.
Qed.

(** What a loop that meets the end of the input has read and written. *)
Lemma input_float_loop_eof
    (prompt : String.string) (lines : list String.string)
    (out : list written) (c' : console) :
  _input_float_loop float prompt lines out = (EOFError, c') ->
  Forall (fun line => float line = None) lines /\
  c' = {| stdin := [];
          stdout := out ++ refusals prompt lines ++ [prompted prompt] |}.
Proof.
  revert out. induction lines as [|line rest IH]; intros out Hrun.
  - injection Hrun as <-. split; [constructor | reflexivity].
  - cbn [_input_float_loop] in Hrun. destruct (float line) as [w|] eqn:Hline.
    + discriminate.
    + destruct (IH _ Hrun) as [Hbad ->].
      split; [constructor; assumption|].
      cbn. rewrite <- app_assoc. reflexivity.
Qed.

(** X18. [_input_float] returns the first line that is a number: it
    returns [v] exactly when the input starts with lines that are no
    numbers, followed by a line that [float] reads as [v]; it has then
    taken these lines and no other, and written the prompt once per line
    read and the warning once per line refused. *)
Theorem input_float_returns
    (prompt : String.string) (c c' : console) (v : R) :
  _input_float float prompt c = (Got v, c') <->
  exists bad good,
    stdin c = bad ++ good :: stdin c' /\
    Forall (fun line => float line = None) bad /\
    float good = Some v /\
    stdout c' = stdout c ++ refusals prompt bad ++ [prompted prompt].
Proof.
  unfold _input_float. split.
  - apply input_float_loop_returns.
  - intros (bad & good & Hin & Hbad & Hgood & Hout).
    rewrite Hin, input_float_loop_skip by assumption.
    cbn [_input_float_loop]. rewrite Hgood.
    destruct c' as [rest out']. cbn in Hout |- *.
    rewrite Hout, <- app_assoc. reflexivity.
Qed.

(** X19. [_input_float] ends in [EOFError] exactly when no line left is a
    number (in particular on an empty input); by then it has read every
    line, warned about each, and written the prompt once more. *)
Theorem input_float_eof (prompt : String.string) (c c' : console) :
  _input_float float prompt c = (EOFError, c') <->
  Forall (fun line => float line = None) (stdin c) /\
  c' = {| stdin := [];
          stdout := stdout c ++ refusals prompt (stdin c) ++ [prompted prompt] |}.
Proof.
  unfold _input_float. split.
  - apply input_float_loop_eof.
  - intros [Hbad ->].
    rewrite <- (app_nil_r (stdin c)) at 1.
    rewrite input_float_loop_skip by assumption.
    cbn. rewrite <- app_assoc. reflexivity.
Qed.

(** One call takes the first number off the numbers among the lines. *)
Lemma input_float_numbers (prompt : String.string) (c : console) :
  match numbers float (stdin c) with
  | v :: vs =>
      exists c', _input_float float prompt c = (Got v, c') /\
                 numbers float (stdin c') = vs
  | [] => exists c', _input_float float prompt c = (EOFError, c')
  end.
Proof.
  unfold _input_float. generalize (stdout c) as out.
  induction (stdin c) as [|line rest IH]; intros out.
  - cbn. eexists. reflexivity.
  - cbn [numbers flat_map _input_float_loop].
    destruct (float line) as [w|] eqn:Hline.
    + cbn. eexists. split; reflexivity.
    + cbn. apply IH.
Qed.

Lemma io_bind_got {A B} (m : IO A) (f : A -> IO B) (c c' : console) (a : A) :
  m c = (Got a, c') -> io_bind m f c = f a c'.
Proof. intros H. unfold io_bind. rewrite H. reflexivity. Qed.

Lemma io_bind_eof {A B} (m : IO A) (f : A -> IO B) (c c' : console) :
  m c = (EOFError, c') -> io_bind m f c = (EOFError, c').
Proof. intros H. unfold io_bind. rewrite H. reflexivity. Qed.

(** The next call of [_input_float] in the goal, by the numbers left. *)
Ltac next_number H :=
  match goal with
  | |- context [io_bind (_input_float ?float ?p) _ ?c] =>
      pose proof (input_float_numbers p c) as H; cbn [stdin] in H
  end.

(** [get_user_input], by the numbers among the lines. *)
Lemma get_user_input_run (c : console) :
  match numbers float (stdin c) with
  | a :: b :: rate :: target :: _ =>
      exists c', get_user_input float c = (Got (a, b, rate, target), c')
  | _ => exists c', get_user_input float c = (EOFError, c')
  end.
Proof.
  unfold get_user_input.
  erewrite io_bind_got by reflexivity.
  next_number H1.
  destruct (numbers float (stdin c)) as [|a vs1].
  { destruct H1 as [c1 H1]. erewrite io_bind_eof by exact H1. eauto. }
  destruct H1 as (c1 & H1 & Hn1). erewrite io_bind_got by exact H1.
  next_number H2. rewrite Hn1 in H2. destruct vs1 as [|b vs2].
  { destruct H2 as [c2 H2]. erewrite io_bind_eof by exact H2. eauto. }
  destruct H2 as (c2 & H2 & Hn2). erewrite io_bind_got by exact H2.
  do 4 (erewrite io_bind_got by reflexivity).
  next_number H3. rewrite Hn2 in H3. destruct vs2 as [|rate vs3].
  { destruct H3 as [c3 H3]. erewrite io_bind_eof by exact H3. eauto. }
  destruct H3 as (c3 & H3 & Hn3). erewrite io_bind_got by exact H3.
  next_number H4. rewrite Hn3 in H4. destruct vs3 as [|target vs4].
  { destruct H4 as [c4 H4]. erewrite io_bind_eof by exact H4. eauto. }
  destruct H4 as (c4 & H4 & _). erewrite io_bind_got by exact H4. eauto.
Qed.

(** X20. [get_user_input] returns the first four numbers among the lines,
    as [t0], [ts], [k] and the target in this order, whatever lines that
    are no numbers stand before or between them; it ends in [EOFError]
    exactly when fewer than four lines are numbers. *)
Theorem get_user_input_numbers (c : console) :
  match numbers float (stdin c) with
  | a :: b :: rate :: target :: _ =>
      fst (get_user_input float c) = Got (a, b, rate, target)
  | _ => fst (get_user_input float c) = EOFError
  end.
Proof.
  pose proof (get_user_input_run c) as H.
  destruct (numbers float (stdin c)) as [|a [|b [|rate [|target rest]]]];
    destruct H as [c' ->]; reflexivity.
Qed.

Lemma io_bind_returns {A B} (m : IO A) (f : A -> IO B)
    (c c' : console) (b : B) :
  io_bind m f c = (Got b, c') ->
  exists a c1, m c = (Got a, c1) /\ f a c1 = (Got b, c').
Proof.
  unfold io_bind. destruct (m c) as [[a|] c1]; intros H; [eauto | discriminate].
Qed.

(** X21. The transcript of [get_user_input].  When it returns, the input
    it has taken is four numbers, each after lines that are no numbers,
    and the lines behind the fourth number are left unread; the output
    has grown by the header, then for each number its prompt, preceded for
    each refused line by the prompt and the warning, with the four lines
    of tips between the second and the third number. *)
Theorem get_user_input_transcript
    (c c' : console) (a b rate target : R) :
  get_user_input float c = (Got (a, b, rate, target), c') ->
  exists bad1 g1 bad2 g2 bad3 g3 bad4 g4,
    stdin c = bad1 ++ g1 :: bad2 ++ g2 :: bad3 ++ g3 :: bad4 ++ g4 :: stdin c' /\
    Forall (fun line => float line = None) (bad1 ++ bad2 ++ bad3 ++ bad4) /\
    float g1 = Some a /\ float g2 = Some b /\
    float g3 = Some rate /\ float g4 = Some target /\
    stdout c' =
      stdout c ++ [printed Text.header]
      ++ refusals Text.ask_t0 bad1 ++ [prompted Text.ask_t0]
      ++ refusals Text.ask_ts bad2 ++ [prompted Text.ask_ts]
      ++ [printed Text.tip; printed Text.tip_mug;
          printed Text.tip_paper; printed Text.tip_tumbler]
      ++ refusals Text.ask_k bad3 ++ [prompted Text.ask_k]
      ++ refusals Text.ask_target bad4 ++ [prompted Text.ask_target].
Proof.
  unfold get_user_input. intros H.
  apply io_bind_returns in H. destruct H as ([] & c0 & Hp0 & H).
  injection Hp0 as <-.
  apply io_bind_returns in H. destruct H as (a' & c1 & H1 & H).
  apply io_bind_returns in H. destruct H as (b' & c2 & H2 & H).
  apply io_bind_returns in H. destruct H as ([] & c3 & Hp3 & H).
  injection Hp3 as <-.
  apply io_bind_returns in H. destruct H as ([] & c4 & Hp4 & H).
  injection Hp4 as <-.
  apply io_bind_returns in H. destruct H as ([] & c5 & Hp5 & H).
  injection Hp5 as <-.
  apply io_bind_returns in H. destruct H as ([] & c6 & Hp6 & H).
  injection Hp6 as <-.
  apply io_bind_returns in H. destruct H as (r' & c7 & H3 & H).
  apply io_bind_returns in H. destruct H as (t' & c8 & H4 & H).
  injection H as <- <- <- <- <-.
  apply input_float_loop_returns in H1, H2, H3, H4. cbn [stdin stdout] in *.
  destruct H1 as (bad1 & g1 & Hin1 & Hbad1 & Hg1 & Hout1).
  destruct H2 as (bad2 & g2 & Hin2 & Hbad2 & Hg2 & Hout2).
  destruct H3 as (bad3 & g3 & Hin3 & Hbad3 & Hg3 & Hout3).
  destruct H4 as (bad4 & g4 & Hin4 & Hbad4 & Hg4 & Hout4).
  exists bad1, g1, bad2, g2, bad3, g3, bad4, g4.
  split; [rewrite Hin1, Hin2, Hin3, Hin4; reflexivity|].
  split; [repeat (apply Forall_app; split); assumption|].
  do 4 (split; [assumption|]).
  rewrite Hout4, Hout3, Hout2, Hout1.
  repeat rewrite <- app_assoc. reflexivity.
Qed.

End ConsoleInput.

Lemma typed_numbers : numbers Text.known_float Text.typed = [80; 20; 0.05; 40].
Proof. reflexivity. Qed.

Lemma get_user_input_transcript_witness :
  exists c' g1 g2 g3 g4,
    get_user_input Text.known_float {| stdin := Text.typed; stdout := [] |}
      = (Got (80, 20, 0.05, 40), c') /\
    Text.known_float g1 = Some 80 /\ Text.known_float g2 = Some 20 /\
    Text.known_float g3 = Some 0.05 /\ Text.known_float g4 = Some 40.
Proof.
  pose proof (get_user_input_run Text.known_float
                {| stdin := Text.typed; stdout := [] |}) as Hrun.
  cbn [stdin] in Hrun. rewrite typed_numbers in Hrun.
  destruct Hrun as [c' Hrun].
  destruct (get_user_input_transcript Text.known_float _ _ _ _ _ _ Hrun)
    as (bad1 & g1 & bad2 & g2 & bad3 & g3 & bad4 & g4
        & _ & _ & H1 & H2 & H3 & H4 & _).
  exists c', g1, g2, g3, g4. repeat split; assumption.
Defined.

(** The session of the examples: what is returned and what is left. *)
Example typed_session :
  get_user_input Text.known_float {| stdin := Text.typed; stdout := [] |}
  = (Got (80, 20, 0.05, 40),
     {| stdin := Text.leftover;
        stdout :=
          [printed Text.header;
           prompted Text.ask_t0;
           prompted Text.ask_ts; printed Text.invalid_number;
           prompted Text.ask_ts;
           printed Text.tip; printed Text.tip_mug;
           printed Text.tip_paper; printed Text.tip_tumbler;
           prompted Text.ask_k;
           prompted Text.ask_target; printed Text.invalid_number;
           prompted Text.ask_target] |}).
Proof. reflexivity. Qed.
(** ** Plotting leaves the calculator alone *)

Section PlotFrame.

Context {math : MathModule}.

Lemma comprehension_frame (self : CoolingCalculator) (xs : list R) :
  snd (comprehension calculate_at_time xs self) = self.
Proof.
  induction xs as [|x xs IH]; [reflexivity|].
  cbn [comprehension]. unfold bind at 1.
  pose proof (calculate_at_time_frame x self) as Hx.
  destruct (calculate_at_time x self) as [[v|e] self1]; cbn in Hx; subst self1;
    [|reflexivity].
  unfold bind at 1.
  destruct (comprehension calculate_at_time xs self) as [[vs|e] self2];
    cbn in IH; subst self2; reflexivity.
Qed.

End PlotFrame.

(** X25. [plot_cooling_curve] does not change the calculator it is given,
    whether it produces a figure or fails on the way, whatever the [math]
    module does. *)
Theorem plot_leaves_calculator
    (math : MathModule) (self : CoolingCalculator) (target_t target_time : R) :
  snd (plot_cooling_curve target_t target_time self) = self.
Proof.
  unfold plot_cooling_curve. unfold bind at 1.
  pose proof (comprehension_frame self
    (map (fun i => INR i * (target_time * 1.5) / 99) (seq 0 100))) as H.
  destruct (comprehension calculate_at_time _ self) as [[vs|e] self1];
    cbn in H; subst self1; reflexivity.
Qed.

(** ** The program in binary64: what it computes *)

Module Binary64Facts.
Import Floats.
Import Binary64.
#[local] Open Scope bool_scope.
#[local] Open Scope float_scope.
#[local] Set Warnings "-inexact-float,-notation-overridden".

#[local] Notation "x <- m ;; f" := (bind m (fun x => f))
  (at level 61, m at next level, right associativity).

(** *** Signs and comparisons *)

Ltac bools := repeat match goal with s : bool |- _ => destruct s end.

Ltac shapes :=
  cbn in *; repeat split; intros; bools; cbn in *;
  try reflexivity; try discriminate; try congruence.

(** Every comparison and test of the goal and of the context, through its
    specification on the representation. *)
Ltac to_spec :=
  rewrite ?ltb_spec, ?leb_spec, ?eqb_spec, ?abs_spec, ?opp_spec in *;
  unfold SFltb, SFleb, SFeqb in *.

Lemma is_nan_spec (x : float) :
  is_nan x = match Prim2SF x with S754_nan => true | _ => false end.
Proof.
  unfold is_nan. rewrite eqb_spec. unfold SFeqb.
  destruct (Prim2SF x) as [s|s| |s m e];
    try (destruct s; reflexivity); try reflexivity.
  cbn. destruct s; rewrite Z.compare_refl, Pos.compare_cont_refl; reflexivity.
Qed.

Lemma is_infinity_spec (x : float) :
  is_infinity x =
  match Prim2SF x with S754_infinity _ => true | _ => false end.
Proof.
  unfold is_infinity. rewrite eqb_spec, abs_spec. unfold SFeqb.
  change (Prim2SF infinity) with (S754_infinity false).
  destruct (Prim2SF x) as [s|s| |s m e]; reflexivity.
Qed.

Lemma is_finite_spec (x : float) :
  is_finite x =
  match Prim2SF x with S754_zero _ | S754_finite _ _ _ => true | _ => false end.
Proof.
  unfold is_finite. rewrite is_nan_spec, is_infinity_spec.
  destruct (Prim2SF x); reflexivity.
Qed.

Ltac tests := rewrite ?is_nan_spec, ?is_infinity_spec, ?is_finite_spec in *.

(** The representation of a literal, computed. *)
Ltac literal c :=
  let v := eval vm_compute in (Prim2SF c) in
  change (Prim2SF c) with v in *.

Ltac by_sign x :=
  destruct (Prim2SF x) as [[]|[]| |[] ? ?]; cbn in *;
  try reflexivity; try discriminate; try congruence.

Lemma ltb_0_positive (x : float) : (0 <? x) = strictly_positive (Prim2SF x).
Proof. to_spec. literal 0. by_sign x. Qed.



Lemma negative_not_positive (x : spec_float) :
  strictly_negative x = true -> not_positive x = true.
Proof. destruct x as [[]|[]| |[] ? ?]; cbn; congruence. Qed.

Lemma leb_0_not_negative (x : float) :
  (0 <=? x) = true -> not_negative (Prim2SF x) = true.
Proof. to_spec. literal 0. by_sign x. Qed.



(** A number that is not positive is NaN or at most zero. *)
Lemma not_positive_cases (x : float) :
  not_positive (Prim2SF x) = true -> is_nan x = true \/ (x <=? 0) = true.
Proof.
  tests. to_spec. literal 0.
  destruct (Prim2SF x) as [[]|[]| |[] ? ?]; cbn; intros; auto; discriminate.
Qed.

Lemma positive_tests (x : float) :
  (0 <? x) = true ->
  (x <=? 0) = false /\ (x =? 0) = false /\ is_nan x = false.
Proof. tests. to_spec. literal 0. by_sign x; auto. Qed.

Lemma eqb_0_zero (x : float) :
  (x =? 0) = true -> exists s, Prim2SF x = S754_zero s.
Proof.
  to_spec. literal 0.
  destruct (Prim2SF x) as [s|[]| |[] ? ?]; cbn; try discriminate; eauto.
Qed.

Lemma eqb_0_cases (x : float) : (x =? 0) = true -> x = 0 \/ x = -0.
Proof.
  intros H. destruct (eqb_0_zero x H) as [[] Hs]; [right | left];
    apply Prim2SF_inj; rewrite Hs; reflexivity.
Qed.

Lemma leb_ltb_eqb (x y : float) :
  (x <=? y) = true -> (x <? y) = false -> (x =? y) = true.
Proof.
  to_spec. destruct (SFcompare (Prim2SF x) (Prim2SF y)) as [[]|]; congruence.
Qed.

Lemma ltb_leb (x y : float) : (x <? y) = true -> (x <=? y) = true.
Proof.
  to_spec. destruct (SFcompare (Prim2SF x) (Prim2SF y)) as [[]|]; congruence.
Qed.

Lemma leb_not_nan (x y : float) :
  (x <=? y) = true -> is_nan x = false /\ is_nan y = false.
Proof.
  tests. to_spec.
  destruct (Prim2SF x) as [?|?| |? ? ?], (Prim2SF y) as [?|?| |? ? ?];
    cbn; intros; try discriminate; auto.
Qed.

Lemma finite_tests (x : float) :
  is_finite x = true -> is_nan x = false /\ is_infinity x = false.
Proof. tests. destruct (Prim2SF x); intros; try discriminate; auto. Qed.

(** A number between 0 and 1 is finite. *)
Lemma unit_finite (x : float) :
  (0 <=? x) = true -> (x <=? 1) = true -> is_finite x = true.
Proof.
  tests. to_spec. literal 0. literal 1.
  destruct (Prim2SF x) as [[]|[]| |[] ? ?];
    try (intros; reflexivity); unfold SFcompare; congruence.
Qed.

(** *** Signs through the operations *)

Lemma round_aux_sign (s : bool) (m e : Z) (l : location) :
  match binary_round_aux prec emax s m e l with
  | S754_zero s' | S754_infinity s' | S754_finite s' _ _ => s' = s
  | S754_nan => True
  end.
Proof.
  unfold binary_round_aux.
  destruct (shr_fexp prec emax m e l) as [mrs' e'].
  destruct (shr_fexp prec emax _ e' loc_Exact) as [mrs'' e''].
  destruct (shr_m mrs''); [reflexivity | | exact I].
  destruct (Z.leb e'' (emax - prec)); reflexivity.
Qed.

Lemma SFmul_sign (x y : spec_float) :
  (not_negative x = true -> not_negative y = true ->
   not_negative (SF64mul x y) = true) /\
  (not_positive x = true -> not_negative y = true ->
   not_positive (SF64mul x y) = true) /\
  (not_positive x = true -> not_positive y = true ->
   not_negative (SF64mul x y) = true).
Proof.
  unfold SF64mul.
  destruct x as [sx|sx| |sx mx ex], y as [sy|sy| |sy my ey];
    try solve [shapes].
  cbn [SFmul].
  pose proof (round_aux_sign (xorb sx sy) (Zpos (mx * my)) (ex + ey) loc_Exact) as H.
  destruct (binary_round_aux prec emax (xorb sx sy) (Zpos (mx * my)) (ex + ey) loc_Exact);
    shapes.
Qed.


Lemma SFopp_sign (x : spec_float) :
  (not_negative x = true -> not_positive (SFopp x) = true) /\
  (not_positive x = true -> not_negative (SFopp x) = true) /\
  (strictly_positive x = true -> strictly_negative (SFopp x) = true).
Proof. destruct x; shapes. Qed.

Lemma mul_not_positive (x y : float) :
  not_positive (Prim2SF x) = true -> not_negative (Prim2SF y) = true ->
  not_positive (Prim2SF (x * y)) = true.
Proof. rewrite mul_spec. apply SFmul_sign. Qed.




Lemma opp_not_positive (x : float) :
  not_negative (Prim2SF x) = true -> not_positive (Prim2SF (- x)) = true.
Proof. rewrite opp_spec. apply SFopp_sign. Qed.


(** *** The reference library has the facts asked of a C library *)

Lemma above_710_positive (x : float) :
  (710 <=? x) = true -> strictly_positive (Prim2SF x) = true.
Proof.
  to_spec. literal 710.
  destruct (Prim2SF x) as [[]|[]| |[] ? ?];
    try (intros; reflexivity); unfold SFcompare; congruence.
Qed.

Lemma below_746_negative (x : float) :
  (x <=? -746) = true -> strictly_negative (Prim2SF x) = true.
Proof.
  to_spec. literal (-746).
  destruct (Prim2SF x) as [[]|[]| |[] ? ?];
    try (intros; reflexivity); unfold SFcompare; congruence.
Qed.

Lemma negative_tests (x : float) :
  strictly_negative (Prim2SF x) = true ->
  (x =? 0) = false /\ (710 <=? x) = false /\ (x <=? 0) = true.
Proof.
  to_spec. literal 0. literal 710.
  destruct (Prim2SF x) as [[]|[]| |[] ? ?]; unfold SFcompare; cbn [strictly_negative];
    intros; try discriminate; auto.
Qed.

Lemma leb_0_below_710 (x : float) : (x <=? 0) = true -> (710 <=? x) = false.
Proof.
  to_spec. literal 0. literal 710.
  destruct (Prim2SF x) as [[]|[]| |[] ? ?]; unfold SFcompare;
    intros; try discriminate; auto.
Qed.

Lemma reference_exp_zero (x : float) :
  (x =? 0) = true -> reference_exp x = 1.
Proof. unfold reference_exp. intros ->. reflexivity. Qed.

Lemma reference_exp_overflow (x : float) :
  (710 <=? x) = true -> reference_exp x = infinity.
Proof.
  intros H. unfold reference_exp. rewrite H.
  apply above_710_positive in H. rewrite <- ltb_0_positive in H.
  destruct (positive_tests x H) as (_ & -> & _). reflexivity.
Qed.

Lemma reference_exp_underflow (x : float) :
  (x <=? -746) = true -> reference_exp x = 0.
Proof.
  intros H. unfold reference_exp. rewrite H.
  destruct (negative_tests x (below_746_negative x H)) as (-> & -> & ->).
  reflexivity.
Qed.

Lemma reference_exp_unit (x : float) :
  (x <=? 0) = true ->
  (0 <=? reference_exp x) = true /\ (reference_exp x <=? 1) = true.
Proof.
  intros H. unfold reference_exp.
  rewrite (leb_0_below_710 x H), H.
  destruct (x =? 0); [split; reflexivity|].
  destruct (x <=? -746); split; reflexivity.
Qed.

Lemma reference_exp_nan (x : float) :
  is_nan (reference_exp x) = true -> is_nan x = true.
Proof.
  unfold reference_exp.
  destruct (x =? 0); [intros H; vm_compute in H; discriminate|].
  destruct (710 <=? x); [intros H; vm_compute in H; discriminate|].
  destruct (x <=? 0).
  - destruct (x <=? -746); intros H; vm_compute in H; discriminate.
  - destruct (is_nan x); [reflexivity|].
    intros H; vm_compute in H; discriminate.
Qed.

Lemma reference_log_one : reference_log 1 = 0.
Proof. reflexivity. Qed.

Lemma reference_log_unit (x : float) :
  (0 <? x) = true -> (x <=? 1) = true -> (reference_log x <=? 0) = true.
Proof.
  intros _ H. unfold reference_log.
  destruct (x <? 1) eqn:Hlt; [reflexivity|].
  rewrite (leb_ltb_eqb x 1 H Hlt). reflexivity.
Qed.

Lemma reference_log_below_one (x : float) :
  (0 <? x) = true -> (x <? 1) = true -> (reference_log x <? 0) = true.
Proof. intros _ H. unfold reference_log. rewrite H. reflexivity. Qed.

Lemma reference_log_finite (x : float) :
  is_finite x = true -> (0 <? x) = true ->
  is_finite (reference_log x) = true.
Proof.
  intros H _. unfold reference_log. rewrite H.
  destruct (x <? 1); [reflexivity|]. destruct (x =? 1); reflexivity.
Qed.

(** The reference library. *)
Definition reference : Libm :=
  {| libm_exp := reference_exp;
     libm_log := reference_log;
     exp_zero := reference_exp_zero;
     exp_overflow := reference_exp_overflow;
     exp_underflow := reference_exp_underflow;
     exp_unit := reference_exp_unit;
     exp_nan := reference_exp_nan;
     log_one := reference_log_one;
     log_unit := reference_log_unit;
     log_below_one := reference_log_below_one;
     log_finite := reference_log_finite |}.

(** *** [math.exp] and [math.log] *)

Section Math.

Context {libm : Libm}.

(** [math.exp] raises on an overflow at a finite argument and on nothing
    else. *)
Lemma math_exp_cases (x : float) :
  math_exp x =
  if is_infinity (libm_exp x) && is_finite x then Raise OverflowError
  else Ok (libm_exp x).
Proof.
  unfold math_exp, math_1.
  destruct (is_nan (libm_exp x)) eqn:Hr; [|reflexivity].
  rewrite (exp_nan x Hr). cbn [negb andb].
  unfold is_finite. rewrite (exp_nan x Hr). cbn [orb negb].
  rewrite Bool.andb_false_r. reflexivity.
Qed.

(** No overflow on an argument that is not positive. *)
Lemma math_exp_run (x : float) :
  not_positive (Prim2SF x) = true -> math_exp x = Ok (libm_exp x).
Proof.
  intros H. rewrite math_exp_cases.
  destruct (not_positive_cases x H) as [Hnan | Hle].
  - unfold is_finite. rewrite Hnan. cbn [orb negb].
    rewrite Bool.andb_false_r. reflexivity.
  - destruct (exp_unit x Hle) as [H0 H1].
    destruct (finite_tests _ (unit_finite _ H0 H1)) as [_ ->]. reflexivity.
Qed.

Lemma math_exp_overflow (x : float) :
  (710 <=? x) = true -> is_finite x = true ->
  math_exp x = Raise OverflowError.
Proof.
  intros H Hfin. rewrite math_exp_cases, (exp_overflow x H), Hfin. reflexivity.
Qed.


Lemma math_exp_zero (x : float) : (x =? 0) = true -> math_exp x = Ok 1.
Proof.
  intros H. rewrite math_exp_cases, (exp_zero x H). reflexivity.
Qed.


(** [math.log(0.0)] and [math.log(-0.0)] raise [ValueError]. *)
Lemma math_log_zero (q : float) :
  (q =? 0) = true -> math_log q = Raise ValueError.
Proof.
  intros H. destruct (eqb_0_cases q H) as [-> | ->]; reflexivity.
Qed.



(** *** The methods, run *)

Lemma forward_run (t : float) (self : CoolingCalculator) :
  calculate_at_time t self =
  (match math_exp (- k self * t) with
   | Ok e => Ok (ts self + (t0 self - ts self) * e)
   | Raise x => Raise x
   end, self).
Proof.
  unfold calculate_at_time, bind, attr, call, ret.
  destruct (math_exp (- k self * t)); reflexivity.
Qed.

Lemma guards_run (target : float) (self : CoolingCalculator) :
  calculate_time_to_target target self =
  (if (k self <=? 0) || negb (between (t0 self) (ts self) target)
   then Ok None else inversion self target, self).
Proof.
  unfold calculate_time_to_target, between, inversion, bind, attr, call, ret.
  destruct (k self <=? 0); [reflexivity|]. cbn [orb].
  destruct (py_min (t0 self) (ts self) <? target); [|reflexivity].
  cbn [andb].
  destruct (target <? py_max (t0 self) (ts self)); [|reflexivity].
  cbn [negb].
  destruct (truediv 1 (k self)); [|reflexivity].
  destruct (truediv (target - ts self) (t0 self - ts self)); [|reflexivity].
  destruct (math_log a0); reflexivity.
Qed.

Lemma inversion_not_None (self : CoolingCalculator) (target : float) :
  inversion self target <> Ok None.
Proof.
  unfold inversion.
  destruct (truediv 1 (k self)); [|discriminate].
  destruct (truediv (target - ts self) (t0 self - ts self)); [|discriminate].
  destruct (math_log a0); discriminate.
Qed.

End Math.

(** *** Zeros in the arithmetic *)











(** *** The inversion *)

Section Inversion.

Context {libm : Libm}.




(** Two hundred orders of magnitude: the quotient is rounded to zero and
    [math.log] raises. *)
Lemma huge_raises :
  calculate_time_to_target 1e-200 huge = (Raise ValueError, huge).
Proof.
  rewrite guards_run.
  change ((k huge <=? 0) || negb (between (t0 huge) (ts huge) 1e-200))
    with false.
  cbv iota. unfold inversion.
  change (truediv 1 (k huge)) with (Ok (A := float) 1).
  change (truediv (1e-200 - ts huge) (t0 huge - ts huge))
    with (Ok (A := float) 0).
  cbv iota. rewrite (math_log_zero 0 eq_refl). reflexivity.
Qed.



End Inversion.

(** *** The forward evaluation *)

Section Forward.

Context {libm : Libm}.


(** With a negative rate constant the exponential overflows. *)
Lemma runaway_overflows :
  calculate_at_time 2000 runaway = (Raise OverflowError, runaway).
Proof.
  rewrite forward_run.
  rewrite (math_exp_overflow (- k runaway * 2000) eq_refl eq_refl).
  reflexivity.
Qed.


(** The difference of the two temperatures overflows. *)
Lemma wide_is_infinite :
  calculate_at_time 0 wide = (Ok infinity, wide).
Proof.
  rewrite forward_run.
  rewrite (math_exp_zero (- k wide * 0) eq_refl). reflexivity.
Qed.




(** C6, as amended for binary64.  [calculate_at_time(t)] raises nothing
    but [OverflowError], and raises it exactly when C's [exp] is infinite
    at a finite argument [-k * t], which is so from 710 on.  It raises
    nothing when [k >= 0] and [t >= 0].  What it returns is a float: it
    need not be finite. *)
Theorem calculate_at_time_errors (self : CoolingCalculator) (t : float) :
  (forall e, calculate_at_time t self = (Raise e, self) ->
     e = OverflowError /\
     is_infinity (libm_exp (- k self * t)) = true /\
     is_finite (- k self * t) = true) /\
  (is_infinity (libm_exp (- k self * t)) = true ->
   is_finite (- k self * t) = true ->
   calculate_at_time t self = (Raise OverflowError, self)) /\
  ((710 <=? - k self * t) = true -> is_finite (- k self * t) = true ->
   calculate_at_time t self = (Raise OverflowError, self)) /\
  ((0 <=? k self) = true -> (0 <=? t) = true ->
   calculate_at_time t self =
     (Ok (ts self + (t0 self - ts self) * libm_exp (- k self * t)), self)).
Proof.
  split; [|split; [|split]].
  - rewrite forward_run, math_exp_cases. intros e.
    destruct (is_infinity (libm_exp (- k self * t))) eqn:Hinf;
      destruct (is_finite (- k self * t)) eqn:Hfin; cbn [andb];
      intros H; inversion H; auto.
  - intros Hinf Hfin.
    rewrite forward_run, math_exp_cases, Hinf, Hfin. reflexivity.
  - intros H Hfin.
    rewrite forward_run, (math_exp_overflow _ H Hfin). reflexivity.
  - intros Hk Ht. rewrite forward_run, math_exp_run; [reflexivity|].
    apply mul_not_positive.
    + apply opp_not_positive, leb_0_not_negative, Hk.
    + apply leb_0_not_negative, Ht.
Qed.


End Forward.

(** *** The sampling of the plot *)

Section Sampling.

Context {libm : Libm}.

Lemma math_exp_raises (x : float) (e : exn) :
  math_exp x = Raise e -> e = OverflowError.
Proof.
  rewrite math_exp_cases.
  destruct (is_infinity (libm_exp x) && is_finite x); congruence.
Qed.

Lemma comprehension_cons
  (x : float) (xs : list float) (self : CoolingCalculator) :
  comprehension calculate_at_time (x :: xs) self =
  match calculate_at_time x self with
  | (Ok v, self') =>
      match comprehension calculate_at_time xs self' with
      | (Ok ys, self'') => (Ok (v :: ys), self'')
      | (Raise e, self'') => (Raise e, self'')
      end
  | (Raise e, self') => (Raise e, self')
  end.
Proof. reflexivity. Qed.

(** The comprehension stops at the first sample where [math.exp]
    overflows; otherwise it holds the temperature of every sample. *)
Lemma comprehension_cases (xs : list float) (self : CoolingCalculator) :
  (exists ys,
     comprehension calculate_at_time xs self = (Ok ys, self) /\
     Forall2 (fun t v => calculate_at_time t self = (Ok v, self)) xs ys) \/
  (comprehension calculate_at_time xs self = (Raise OverflowError, self) /\
   Exists (fun t => calculate_at_time t self = (Raise OverflowError, self)) xs).
Proof.
  induction xs as [|x xs IH].
  - left. exists []. split; [reflexivity | constructor].
  - rewrite comprehension_cons.
    destruct (math_exp (- k self * x)) as [v|e] eqn:Hx.
    + assert (Hv : calculate_at_time x self =
                   (Ok (ts self + (t0 self - ts self) * v), self))
        by (rewrite forward_run, Hx; reflexivity).
      rewrite Hv.
      destruct IH as [(ys & -> & Hys) | (-> & Hex)].
      * left. eexists. split; [reflexivity|]. constructor; assumption.
      * right. split; [reflexivity|]. apply Exists_cons_tl, Hex.
    + assert (He : calculate_at_time x self = (Raise OverflowError, self))
        by (rewrite forward_run, Hx, (math_exp_raises _ _ Hx); reflexivity).
      rewrite He. right. split; [reflexivity|]. apply Exists_cons_hd, He.
Qed.

Lemma plot_run (target_t target_time : float) (self : CoolingCalculator) :
  plot_cooling_curve target_t target_time self =
  (match fst (comprehension calculate_at_time (sample_times target_time) self) with
   | Ok temps =>
       Ok {| times := sample_times target_time;
             temps := temps;
             axhline := target_t;
             scatter := (target_time, target_t);
             xytext := (target_time + target_time * 0.1,
                        target_t + (t0 self - target_t) * 0.15) |}
   | Raise e => Raise e
   end, self).
Proof.
  unfold plot_cooling_curve, bind at 1.
  destruct (comprehension_cases (sample_times target_time) self)
    as [(ys & -> & _) | (-> & _)]; reflexivity.
Qed.






Lemma all_return
  (xs ys : list float) (self : CoolingCalculator) :
  Forall2 (fun t v => calculate_at_time t self = (Ok v, self)) xs ys ->
  Forall (fun t => exists v, calculate_at_time t self = (Ok v, self)) xs.
Proof. induction 1; constructor; eauto. Qed.

(** A sample at which the forward evaluation overflows makes the plot
    raise. *)
Lemma plot_raises (self : CoolingCalculator) (target_t target_time t : float) :
  In t (sample_times target_time) ->
  calculate_at_time t self = (Raise OverflowError, self) ->
  plot_cooling_curve target_t target_time self = (Raise OverflowError, self).
Proof.
  intros Hin Ht. rewrite plot_run.
  destruct (comprehension_cases (sample_times target_time) self)
    as [(ys & _ & Hys) | (-> & _)]; [|reflexivity].
  exfalso.
  pose proof (all_return _ _ _ Hys) as Hall.
  rewrite Forall_forall in Hall. destruct (Hall t Hin) as [v Hv].
  rewrite Hv in Ht. discriminate.
Qed.


End Sampling.

(** *** The dispatch of [main] *)

Section Main.

Context {libm : Libm}.



Lemma huge_ends_badly : main 1e200 0 1 1e-200 = ([], Raise ValueError).
Proof.
  unfold main. change (__init__ 1e200 0 1) with huge.
  rewrite huge_raises. reflexivity.
Qed.

End Main.

(** *** The guards and the object, in binary64 *)

Ltac conjuncts := repeat match goal with |- _ /\ _ => split end.

Section Guards.

Context {libm : Libm}.

(** X26.  In binary64 too, [calculate_time_to_target] returns [None]
    exactly when [k <= 0] or the target is not strictly between the two
    temperatures, whatever the floats are (infinities and NaN included). *)
Theorem no_solution_iff_binary64 (self : CoolingCalculator) (target : float) :
  calculate_time_to_target target self = (Ok None, self) <->
  (k self <=? 0) = true \/ between (t0 self) (ts self) target = false.
Proof.
  rewrite guards_run. split.
  - destruct (k self <=? 0); [auto|].
    destruct (between (t0 self) (ts self) target); [|auto].
    cbn [orb negb]. intros H. exfalso.
    apply (inversion_not_None self target). congruence.
  - intros [-> | ->]; [reflexivity|]. rewrite Bool.orb_true_r. reflexivity.
Qed.

(** X27.  In binary64 too, no method changes the calculator: the object
    after a call is the object before it, whether the call returns or
    raises. *)
Theorem methods_leave_calculator
  (self : CoolingCalculator) (t target target_time : float) :
  snd (calculate_at_time t self) = self /\
  snd (calculate_time_to_target target self) = self /\
  snd (plot_cooling_curve target target_time self) = self.
Proof.
  rewrite forward_run, guards_run, plot_run. conjuncts; reflexivity.
Qed.

(** X17.  [main] prints the failure message, and ends normally, whenever
    [k <= 0] or the target is not strictly between the two temperatures. *)
Theorem main_refuses (t0 ts k target : float) :
  (k <=? 0) = true \/ between t0 ts target = false ->
  main t0 ts k target = ([print_error], Ok tt).
Proof.
  intros H. unfold main.
  apply (no_solution_iff_binary64 (__init__ t0 ts k) target) in H.
  rewrite H. reflexivity.
Qed.

(** X23.  From [-k * t >= 710] on, [calculate_at_time(t)] raises
    [OverflowError] when the product [-k * t] is finite; when the product
    itself overflowed to infinity, [math.exp] returns infinity without
    raising and the call returns [ts + (t0 - ts) * inf]. *)
Theorem overflow_threshold_binary64 (self : CoolingCalculator) (t : float) :
  (710 <=? - k self * t) = true ->
  calculate_at_time t self =
  (if is_finite (- k self * t) then Raise OverflowError
   else Ok (ts self + (t0 self - ts self) * infinity), self).
Proof.
  intros H. rewrite forward_run, math_exp_cases, (exp_overflow _ H).
  change (is_infinity infinity) with true. cbn [andb].
  destruct (is_finite (- k self * t)); reflexivity.
Qed.

(** X24.  [plot_cooling_curve] raises [OverflowError] exactly when the
    forward evaluation overflows at one of the sample times; it raises
    nothing else. *)
Theorem plot_raises_iff
  (self : CoolingCalculator) (target_t target_time : float) :
  (plot_cooling_curve target_t target_time self = (Raise OverflowError, self)
   <->
   Exists (fun t => calculate_at_time t self = (Raise OverflowError, self))
          (sample_times target_time)) /\
  (forall e, plot_cooling_curve target_t target_time self = (Raise e, self) ->
     e = OverflowError).
Proof.
  split; [split|].
  - intros H. rewrite plot_run in H.
    destruct (comprehension_cases (sample_times target_time) self)
      as [(ys & Hys & _) | (_ & Hex)]; [|exact Hex].
    rewrite Hys in H. discriminate.
  - intros Hex. apply Exists_exists in Hex as (t & Hin & Ht).
    exact (plot_raises self target_t target_time t Hin Ht).
  - intros e H. rewrite plot_run in H.
    destruct (comprehension_cases (sample_times target_time) self)
      as [(ys & Hys & _) | (Hraise & _)].
    + rewrite Hys in H. discriminate.
    + rewrite Hraise in H. cbn [fst] in H. congruence.
Qed.

End Guards.

(** *** The claims at concrete inputs *)







(** C6 fails in binary64, with finite parameters and a finite time: an
    evaluation that raises, and one that returns infinity where neither
    [k] nor [t] is negative. *)
Lemma calculate_at_time_not_total :
  (is_finite (t0 runaway) && is_finite (ts runaway) &&
   is_finite (k runaway) && is_finite 2000 = true /\
   calculate_at_time (libm := reference) 2000 runaway =
     (Raise OverflowError, runaway)) /\
  (is_finite (t0 wide) && is_finite (ts wide) &&
   is_finite (k wide) && is_finite 0 = true /\
   (0 <=? k wide) = true /\
   calculate_at_time (libm := reference) 0 wide = (Ok infinity, wide) /\
   is_finite infinity = false).
Proof.
  split.
  - split; [reflexivity | apply runaway_overflows].
  - split; [reflexivity|]. split; [reflexivity|].
    split; [apply wide_is_infinite | reflexivity].
Qed.




Lemma overflow_threshold_binary64_witness :
  calculate_at_time (libm := reference) 2000 runaway =
    (Raise OverflowError, runaway) /\
  calculate_at_time (libm := reference) 1e200 (__init__ 80 20 (-1e200)) =
    (Ok infinity, __init__ 80 20 (-1e200)).
Proof.
  split.
  - exact (overflow_threshold_binary64 (libm := reference) runaway 2000 eq_refl).
  - exact (overflow_threshold_binary64 (libm := reference)
             (__init__ 80 20 (-1e200)) 1e200 eq_refl).
Defined.

Lemma main_refuses_witness :
  main (libm := reference) 80 20 0 40 = ([print_error], Ok tt) /\
  main (libm := reference) 80 20 0.05 90 = ([print_error], Ok tt).
Proof.
  split.
  - exact (main_refuses (libm := reference) 80 20 0 40 (or_introl eq_refl)).
  - exact (main_refuses (libm := reference) 80 20 0.05 90 (or_intror eq_refl)).
Defined.

End Binary64Facts.
